(** * StrongR registration page (src/src/App.tsx): model and properties

    A shallow embedding of the single-file React application: the
    [ordinal] helper, the query-parameter reader, the registration
    payload, the submit handler as a state-and-exception computation,
    the rank-preview effect, and the [Hero] / [Table] / [App] render
    functions as pure functions from state to a view tree.

    The model follows the TypeScript source.  The older JavaScript copy
    of the same component differs from it only in the fallbacks of the
    row key and of the row date ([||] where the TypeScript has [??]).

    Conventions.
    - A JavaScript string is its sequence of UTF-16 code units
      ([jsstring]); ASCII literals are written [str "..."].
    - A [number] that the program treats as a measurement (the time in
      seconds, the coerced age) is an IEEE binary64 value, Rocq's
      primitive [float].  A [number] that is an integer by meaning
      (ranks, row ids, ages in leaderboard rows, array indices) is a [Z];
      [String_int] is [Number::toString] on such a value, which prints
      every digit for magnitudes below 10^21.
    - A value that arrives from the backend is modelled at the type the
      code casts it to; [option] stands for a property that may be absent
      or [null].
    - Runtime services whose result depends on the host (string to
      number parsing, [toFixed], date formatting, URI encoding) are the
      fields of the [Runtime] class. *)

From Stdlib Require Import ZArith Floats Ascii String DecimalString DecimalZ DecimalPos.
From stdpp Require Import base option list gmap strings.

Local Open Scope Z_scope.

(** Decimal literals such as [9.8] denote the nearest binary64 value, as
    they do in the source language. *)
#[local] Set Warnings "-inexact-float".

(** ** Strings *)

Definition code_unit := N.
Definition jsstring := list code_unit.

Definition str (s : string) : jsstring :=
  (λ a, N_of_ascii a) <$> list_ascii_of_string s.

(** [ToBoolean] on a string: only the empty string is falsy. *)
Definition nonempty (s : jsstring) : bool :=
  match s with [] => false | _ :: _ => true end.

(** [Number::toString] on an integer value. *)
Definition String_int (n : Z) : jsstring :=
  str (NilZero.string_of_int (Z.to_int n)).

(** Reading a decimal numeral back, to say what [String_int] prints. *)
Definition unstr (s : jsstring) : string :=
  string_of_list_ascii ((λ c, ascii_of_N c) <$> s).

Definition parse_decimal (s : jsstring) : option Z :=
  Z.of_int <$> NilZero.int_of_string (unstr s).

(** ** Utility: ordinals (1st, 2nd, 3rd, ...) *)

(** [a[k]] for an array of strings and a numeric key: a key that is not
    an index of the array reads [undefined]. *)
Definition index {A} (a : list A) (k : Z) : option A :=
  if k <? 0 then None else a !! Z.to_nat k.

(** [x || y] where [x] is [string | undefined]. *)
Definition or_else (x y : option jsstring) : option jsstring :=
  match x with
  | Some (_ :: _) => x
  | _ => y
  end.

(** [String(n) + x] where [x] is [string | undefined]. *)
Definition concat_value (p : jsstring) (x : option jsstring) : jsstring :=
  p ++ default (str "undefined") x.

Definition s : list jsstring := [str "th"; str "st"; str "nd"; str "rd"].

(** [%] on integer values is the truncated remainder, [Z.rem]. *)
Definition ordinal (n : Z) : jsstring :=
  let v := Z.rem n 100 in
  concat_value (String_int n)
    (or_else (or_else (index s (Z.rem (v - 20) 10)) (index s v)) (index s 0)).


(** [String.prototype.trim] strips the code units that ECMAScript calls
    WhiteSpace or LineTerminator from both ends. *)
Definition is_white_space (c : code_unit) : bool :=
  bool_decide (c ∈ [0x9; 0xA; 0xB; 0xC; 0xD; 0x20; 0xA0; 0x1680;
                    0x2000; 0x2001; 0x2002; 0x2003; 0x2004; 0x2005; 0x2006;
                    0x2007; 0x2008; 0x2009; 0x200A; 0x2028; 0x2029; 0x202F;
                    0x205F; 0x3000; 0xFEFF]%N).

Fixpoint trimStart (s : jsstring) : jsstring :=
  match s with
  | c :: t => if is_white_space c then trimStart t else s
  | [] => []
  end.

Definition trimEnd (s : jsstring) : jsstring := reverse (trimStart (reverse s)).

Definition trim (s : jsstring) : jsstring := trimEnd (trimStart s).

(** ** Primitive values and coercions *)

Inductive value :=
| VUndefined
| VNull
| VBoolean (b : bool)
| VNumber (x : float)
| VString (s : jsstring).

Class Runtime := {
  (** [StringToNumber]: the numeric value of a string, NaN when it is not
      a numeric literal. *)
  StringToNumber : jsstring → float;
  (** [Number::toString] on an arbitrary number. *)
  NumberToString : float → jsstring;
  (** [Number.prototype.toFixed]. *)
  toFixed : float → nat → jsstring;
  encodeURIComponent : jsstring → jsstring;
  (** [new Date(x).toLocaleDateString()], for [x] a date string or a
      count of milliseconds. *)
  toLocaleDateString : jsstring + Z → jsstring;
}.

Definition ToBoolean (v : value) : bool :=
  match v with
  | VUndefined | VNull => false
  | VBoolean b => b
  | VNumber x => negb (is_zero x || is_nan x)
  | VString s => nonempty s
  end.

(** [a || b] *)
Definition or_value (a b : value) : value := if ToBoolean a then a else b.

(** [a || b] for a [string | undefined] left operand and a string right
    operand. *)
Definition or_string (a : option jsstring) (b : jsstring) : jsstring :=
  default b (or_else a None).

Definition Number `{Runtime} (v : value) : float :=
  match v with
  | VUndefined => nan
  | VNull => 0%float
  | VBoolean b => if b then 1%float else 0%float
  | VNumber x => x
  | VString s => StringToNumber s
  end.

(** ** Types *)

Module Row.
Record t := {
  id : option Z;
  name : jsstring;
  age : option Z;
  gender : option jsstring;
  country : jsstring;
  time_seconds : float;
  created_at : option jsstring;
  t_qr : option jsstring;
}.
End Row.
Abbreviation LeaderboardRow := Row.t.

Record MeRow := {
  row :> LeaderboardRow;
  rank_country : option Z;
  rank_global : option Z;
}.

Module FormState.
Record t := { name : jsstring; age : jsstring; gender : jsstring }.
End FormState.

Inductive Step := form_step | leaderboards_step.

(** ** Query parameters *)

Abbreviation QueryParams := (gmap string jsstring).

(** [Object.fromEntries] over the entries of the search string: a later
    entry with the same name replaces an earlier one. *)
Definition useQueryParams (entries : list (string * jsstring)) : QueryParams :=
  foldl (λ m kv, <[kv.1 := kv.2]> m) ∅ entries.

(** [qp.k] as a value. *)
Definition prop (qp : QueryParams) (k : string) : value :=
  from_option VString VUndefined (qp !! k).

Definition countryCode (qp : QueryParams) : jsstring :=
  or_string (qp !! "country"%string) [].

Definition countryName (qp : QueryParams) : jsstring :=
  or_string (qp !! "countryName"%string) (or_string (qp !! "country"%string) []).

Definition timeSec `{Runtime} (qp : QueryParams) : float :=
  Number (or_value (prop qp "time") (VNumber 0)).

(** ** JSON documents and [JSON.stringify] *)

Inductive Json :=
| JNull
| JBoolean (b : bool)
| JNumber (x : float)
| JString (s : jsstring).

(** An object document whose members are scalars, in member order. *)
Definition JsonObject := list (string * Json).

(** A property whose value is [undefined] is left out; a number that is
    not finite is written [null]; negative zero is written [0]. *)
Definition stringify_value (v : value) : option Json :=
  match v with
  | VUndefined => None
  | VNull => Some JNull
  | VBoolean b => Some (JBoolean b)
  | VNumber x =>
      Some (if is_finite x then JNumber (if is_zero x then 0%float else x) else JNull)
  | VString s => Some (JString s)
  end.

Definition JSON_stringify (o : list (string * value)) : JsonObject :=
  omap (λ kv, (λ j, (kv.1, j)) <$> stringify_value kv.2) o.

(** The member of an object document, if any. *)
Definition member (k : string) (j : JsonObject) : option Json :=
  (λ r, r.2.2) <$> list_find (λ kv, kv.1 = k) j.

(** ** The registration payload *)

Definition payload `{Runtime} (qp : QueryParams) (form : FormState.t)
  : list (string * value) :=
  [ ("event", prop qp "event");
    ("device", prop qp "device");
    ("country", prop qp "country");
    ("time", prop qp "time");
    ("t", prop qp "t");
    ("nonce", prop qp "nonce");
    ("sig", prop qp "sig");
    ("name", VString (trim (FormState.name form)));
    ("age", if nonempty (FormState.age form)
            then VNumber (Number (VString (FormState.age form)))
            else VNull);
    ("gender", or_value (VString (FormState.gender form)) VNull) ]%string.

(** The names of the members copied from the QR query parameters. *)
Definition qr_fields : list string :=
  ["event"; "device"; "country"; "time"; "t"; "nonce"; "sig"]%string.

(** [o.k] on the payload object. *)
Definition field (o : list (string * value)) (k : string) : value :=
  from_option (λ r, r.2.2) VUndefined (list_find (λ kv, kv.1 = k) o).

(** ** Errors, requests and responses *)

Record JsError := { err_name : jsstring; message : jsstring }.

(** [new Error(msg)] *)
Definition Error (msg : jsstring) : JsError :=
  {| err_name := str "Error"; message := msg |}.

Definition TypeError (msg : jsstring) : JsError :=
  {| err_name := str "TypeError"; message := msg |}.

(** [String(err)], that is [Error.prototype.toString]. *)
Definition String_error (e : JsError) : jsstring :=
  match err_name e, message e with
  | [], m => m
  | n, [] => n
  | n, m => n ++ str ": " ++ m
  end.

Inductive Completion (A : Type) :=
| Normal (a : A)
| Throw (e : JsError).
Arguments Normal {A} a.
Arguments Throw {A} e.

Record Request := {
  url : jsstring;
  method : jsstring;
  headers : list (jsstring * jsstring);
  body : option JsonObject;
}.

(** What a settled [fetch] hands back: the status flag and the outcome
    of reading the body as text or as JSON (typed by the cast the code
    applies to it). *)
Record Response (B : Type) := {
  ok : bool;
  text : Completion jsstring;
  json : Completion B;
}.
Arguments ok {B} r.
Arguments text {B} r.
Arguments json {B} r.

Module RankPreview.
(** [{ rank?: number }]; [rank] is [None] unless [typeof data.rank] is
    ["number"]. *)
Record t := { rank : option Z }.
End RankPreview.

Module Registered.
Record t := {
  me : option MeRow;
  leaderboard_country : option (list LeaderboardRow);
  leaderboard_global : option (list LeaderboardRow);
}.
End Registered.

Definition API_BASE : jsstring :=
  str "https://lfmgpiaokicvdejzxxxr.supabase.co/functions/v1/api".

(** ** Component state *)

Record AppState := {
  step : Step;
  submitting : bool;
  error : jsstring;
  rankPreview : option Z;
  form : FormState.t;
  me : option MeRow;
  lbCountry : list LeaderboardRow;
  lbGlobal : list LeaderboardRow;
}.

(** The state of the first render. *)
Definition initial : AppState :=
  {| step := form_step; submitting := false; error := []; rankPreview := None;
     form := {| FormState.name := []; FormState.age := []; FormState.gender := [] |};
     me := None; lbCountry := []; lbGlobal := [] |}.

(** The component state together with the requests issued so far. *)
Record World := { app : AppState; sent : list Request }.

(** ** Computations: state, and completion by value or by throw *)

Definition M (A : Type) : Type := World → Completion A * World.

#[global] Instance M_ret : MRet M := λ A a w, (Normal a, w).
#[global] Instance M_bind : MBind M := λ A B k m w,
  match m w with
  | (Normal a, w') => k a w'
  | (Throw e, w') => (Throw e, w')
  end.

Definition throw {A} (e : JsError) : M A := λ w, (Throw e, w).

(** [await p] for a promise that settles with [c]. *)
Definition await {A} (c : Completion A) : M A := λ w, (c, w).

(** [try { m } catch (err) { h err } finally { f }] *)
Definition try_catch_finally {A} (m : M A) (h : JsError → M A) (f : M unit) : M A :=
  λ w,
    let r := match m w with
             | (Normal a, w') => (Normal a, w')
             | (Throw e, w') => h e w'
             end in
    match f r.2 with
    | (Normal _, w'') => (r.1, w'')
    | (Throw e, w'') => (Throw e, w'')
    end.

(** [try { m } catch { }] *)
Definition try_catch (m : M unit) : M unit :=
  λ w, match m w with
       | (Normal a, w') => (Normal a, w')
       | (Throw _, w') => (Normal (), w')
       end.

Definition gets {A} (f : AppState → A) : M A := λ w, (Normal (f (app w)), w).

Definition modify (f : AppState → AppState) : M unit :=
  λ w, (Normal (), {| app := f (app w); sent := sent w |}).

(** [fetch(req)] against an endpoint: the request goes out, the promise
    settles with what the endpoint answers. *)
Definition fetch {B} (endpoint : Request → Completion (Response B)) (req : Request)
  : M (Response B) :=
  λ w, (endpoint req, {| app := app w; sent := sent w ++ [req] |}).

Definition setStep (x : Step) : M unit :=
  modify (λ a, {| step := x; submitting := submitting a; error := error a;
                  rankPreview := rankPreview a; form := form a; me := me a;
                  lbCountry := lbCountry a; lbGlobal := lbGlobal a |}).
Definition setSubmitting (x : bool) : M unit :=
  modify (λ a, {| step := step a; submitting := x; error := error a;
                  rankPreview := rankPreview a; form := form a; me := me a;
                  lbCountry := lbCountry a; lbGlobal := lbGlobal a |}).
Definition setError (x : jsstring) : M unit :=
  modify (λ a, {| step := step a; submitting := submitting a; error := x;
                  rankPreview := rankPreview a; form := form a; me := me a;
                  lbCountry := lbCountry a; lbGlobal := lbGlobal a |}).
Definition setRankPreview (x : option Z) : M unit :=
  modify (λ a, {| step := step a; submitting := submitting a; error := error a;
                  rankPreview := x; form := form a; me := me a;
                  lbCountry := lbCountry a; lbGlobal := lbGlobal a |}).
Definition setForm (x : FormState.t) : M unit :=
  modify (λ a, {| step := step a; submitting := submitting a; error := error a;
                  rankPreview := rankPreview a; form := x; me := me a;
                  lbCountry := lbCountry a; lbGlobal := lbGlobal a |}).
Definition setMe (x : option MeRow) : M unit :=
  modify (λ a, {| step := step a; submitting := submitting a; error := error a;
                  rankPreview := rankPreview a; form := form a; me := x;
                  lbCountry := lbCountry a; lbGlobal := lbGlobal a |}).
Definition setLbCountry (x : list LeaderboardRow) : M unit :=
  modify (λ a, {| step := step a; submitting := submitting a; error := error a;
                  rankPreview := rankPreview a; form := form a; me := me a;
                  lbCountry := x; lbGlobal := lbGlobal a |}).
Definition setLbGlobal (x : list LeaderboardRow) : M unit :=
  modify (λ a, {| step := step a; submitting := submitting a; error := error a;
                  rankPreview := rankPreview a; form := form a; me := me a;
                  lbCountry := lbCountry a; lbGlobal := x |}).

(** The [onChange] handlers of the three inputs:
    [setForm({ ...form, name: e.target.value })] and its siblings. *)
Definition onChange_name (v : jsstring) : M unit :=
  f ← gets form;
  setForm {| FormState.name := v; FormState.age := FormState.age f;
             FormState.gender := FormState.gender f |}.
Definition onChange_age (v : jsstring) : M unit :=
  f ← gets form;
  setForm {| FormState.name := FormState.name f; FormState.age := v;
             FormState.gender := FormState.gender f |}.
Definition onChange_gender (v : jsstring) : M unit :=
  f ← gets form;
  setForm {| FormState.name := FormState.name f; FormState.age := FormState.age f;
             FormState.gender := v |}.

(** [data.k] on a parsed body: reading a property of [null] throws. *)
Definition read {B A} (data : option B) (k : B → A) : M A :=
  match data with
  | Some d => mret (k d)
  | None => throw (TypeError (str "Cannot read properties of null"))
  end.

(** ** The rank preview effect *)

Definition rank_preview_url `{Runtime} (qp : QueryParams) : jsstring :=
  API_BASE ++ str "/rank_preview?country=" ++ encodeURIComponent (countryCode qp)
           ++ str "&time=" ++ encodeURIComponent (NumberToString (timeSec qp)).

(** The request that [fetch(url)] issues. *)
Definition preview_request `{Runtime} (qp : QueryParams) : Request :=
  {| url := rank_preview_url qp; method := str "GET"; headers := []; body := None |}.

(** [run()]; [ignore] is the flag as it stands when the body has been
    parsed. *)
Definition run `{Runtime} (qp : QueryParams)
    (endpoint : Request → Completion (Response (option RankPreview.t)))
    (ignore : bool) : M unit :=
  try_catch (
    res ← fetch endpoint (preview_request qp);
    if negb (ok res) then mret ()
    else
      data ← await (json res);
      if negb ignore then
        r ← read data RankPreview.rank;
        match r with
        | Some n => setRankPreview (Some n)
        | None => mret ()
        end
      else mret ()).

(** The body of the effect: [if (countryCode && timeSec > 0) run()]. *)
Definition rank_preview_effect `{Runtime} (qp : QueryParams)
    (endpoint : Request → Completion (Response (option RankPreview.t)))
    (ignore : bool) : M unit :=
  if nonempty (countryCode qp) && (0 <? timeSec qp)%float
  then run qp endpoint ignore
  else mret ().

(** ** The submit handler *)

Definition register_request `{Runtime} (qp : QueryParams) (f : FormState.t) : Request :=
  {| url := API_BASE ++ str "/register";
     method := str "POST";
     headers := [(str "Content-Type", str "application/json")];
     body := Some (JSON_stringify (payload qp f)) |}.

Definition onSubmit `{Runtime} (qp : QueryParams)
    (endpoint : Request → Completion (Response (option Registered.t))) : M unit :=
  f ← gets form;
  setSubmitting true;;
  setError [];;
  try_catch_finally
    (res ← fetch endpoint (register_request qp f);
     if negb (ok res) then
       msg ← await (text res);
       throw (Error (or_string (Some msg) (str "Failed to register")))
     else
       data ← await (json res);
       m ← read data Registered.me;
       setMe m;;
       c ← read data Registered.leaderboard_country;
       setLbCountry (default [] c);;
       g ← read data Registered.leaderboard_global;
       setLbGlobal (default [] g);;
       setStep leaderboards_step)
    (λ err, setError (or_string (Some (message err)) (String_error err)))
    (setSubmitting false).

(** The state after the handler has run to completion. *)
Definition submit `{Runtime} (qp : QueryParams)
    (endpoint : Request → Completion (Response (option Registered.t)))
    (a : AppState) : World :=
  (onSubmit qp endpoint {| app := a; sent := [] |}).2.

(** ** Rendering *)

(** A child that React prints as text: a number or a string. *)
Inductive child :=
| Num (z : Z)
| Text (s : jsstring).

(** The value of [x && <element/>] as a child: the element when [x] is
    truthy, otherwise [x] itself ([undefined], [""] or [0]). *)
Inductive guarded (A : Type) :=
| Element (a : A)
| Undefined
| EmptyString
| Zero.
Arguments Element {A} a.
Arguments Undefined {A}.
Arguments EmptyString {A}.
Arguments Zero {A}.

(** [x && el] for [x : string]. *)
Definition and_string {A} (x : jsstring) (el : A) : guarded A :=
  if nonempty x then Element el else EmptyString.

(** [x && el x] for [x : number | undefined]. *)
Definition and_number {A} (x : option Z) (el : Z → A) : guarded A :=
  match x with
  | None => Undefined
  | Some 0 => Zero
  | Some n => Element (el n)
  end.

Definition em_dash : jsstring := [0x2014%N].

Record HeroView := {
  your_time : jsstring;
  location : jsstring;
  date_time : jsstring;
  estimated_rank : option jsstring;
}.

Definition Hero `{Runtime} (time : float) (countryName localDT : option jsstring)
    (rankPreview : option Z) : HeroView :=
  {| your_time := toFixed (Number (VNumber time)) 2 ++ str " sec";
     location := or_string countryName em_dash;
     date_time := or_string localDT em_dash;
     estimated_rank := ordinal <$> rankPreview |}.

Record RowView := {
  key : jsstring;
  className : jsstring;
  td_index : child;
  td_time : child;
  td_name : child;
  td_age : child;
  td_gender : child;
  td_country : child;
  td_date : child;
}.

Record TableView := { title : jsstring; tbody : list RowView }.

(** [===] on numbers. *)
Definition strict_equal (x y : float) : bool := (x =? y)%float.

Definition isYou (highlight : option LeaderboardRow) (r : LeaderboardRow) : bool :=
  match highlight with
  | None => false
  | Some h =>
      bool_decide (Row.name h = Row.name r)
      && strict_equal (Row.time_seconds h) (Row.time_seconds r)
      && bool_decide (Row.country h = Row.country r)
  end.

Definition tr `{Runtime} (highlight : option LeaderboardRow) (now : Z)
    (idx : nat) (r : LeaderboardRow) : RowView :=
  {| key := match Row.id r with
            | Some i => String_int i
            | None => Row.country r ++ str "-" ++ String_int (Z.of_nat idx)
            end;
     className := if isYou highlight r then str "bg-lime-500/10" else [];
     td_index := Num (Z.of_nat idx + 1);
     td_time := Text (toFixed (Number (VNumber (Row.time_seconds r))) 2);
     td_name := Text (Row.name r);
     td_age := from_option Num (Text []) (Row.age r);
     td_gender := Text (default [] (Row.gender r));
     td_country := Text (Row.country r);
     td_date := Text (toLocaleDateString
                        match Row.created_at r, Row.t_qr r with
                        | Some d, _ => inl d
                        | None, Some d => inl d
                        | None, None => inr now
                        end) |}.

(** [now] is what [Date.now()] reads during this render. *)
Definition Table `{Runtime} (title : jsstring) (rows : list LeaderboardRow)
    (highlight : option LeaderboardRow) (now : Z) : TableView :=
  {| title := title; tbody := imap (tr highlight now) rows |}.

Record RankLine := { label : jsstring; rank_text : jsstring }.

Record FormStepView := {
  hero : HeroView;
  name_value : jsstring;
  age_value : jsstring;
  gender_value : jsstring;
  error_line : guarded jsstring;
  submit_disabled : bool;
  submit_label : jsstring;
}.

Record LeaderboardsStepView := {
  country_rank : guarded RankLine;
  global_rank : guarded RankLine;
  country_table : TableView;
  global_table : TableView;
}.

Inductive View :=
| FormStep (v : FormStepView)
| LeaderboardsStep (v : LeaderboardsStepView).

Definition ellipsis : jsstring := [0x2026%N].

Definition App `{Runtime} (qp : QueryParams) (a : AppState) (now : Z) : View :=
  match step a with
  | form_step =>
      FormStep
        {| hero := Hero (timeSec qp) (Some (countryName qp)) (qp !! "localDT"%string)
                     (rankPreview a);
           name_value := FormState.name (form a);
           age_value := FormState.age (form a);
           gender_value := FormState.gender (form a);
           error_line := and_string (error a) (error a);
           submit_disabled := submitting a;
           submit_label := if submitting a then str "Submitting" ++ ellipsis
                           else str "Submit result" |}
  | leaderboards_step =>
      LeaderboardsStep
        {| country_rank :=
             and_number (me a ≫= rank_country)
               (λ n, {| label := str "Your country rank: "; rank_text := ordinal n |});
           global_rank :=
             and_number (me a ≫= rank_global)
               (λ n, {| label := str "Global rank: "; rank_text := ordinal n |});
           country_table :=
             Table (str "Top 100 " ++ em_dash ++ str " " ++ countryName qp)
               (lbCountry a) (row <$> me a) now;
           global_table :=
             Table (str "Top 20 " ++ em_dash ++ str " Global")
               (lbGlobal a) (row <$> me a) now |}
  end.

(** The four pieces of state that a registration stores are as before. *)
Definition unchanged (a a' : AppState) : Prop :=
  me a' = me a ∧ lbCountry a' = lbCountry a ∧ lbGlobal a' = lbGlobal a
  ∧ step a' = step a.

(** A row is shown highlighted when it carries the highlight class. *)
Definition highlighted (v : RowView) : bool :=
  bool_decide (className v = str "bg-lime-500/10").

(** Everything a rendered row shows except its date cell. *)
Definition without_date (v : RowView)
  : jsstring * jsstring * child * child * child * child * child * child :=
  (key v, className v, td_index v, td_time v, td_name v, td_age v, td_gender v,
   td_country v).

(** ** A runtime for worked examples

    [StringToNumber] here reads a run of at most fifteen decimal digits
    exactly and answers NaN for every other string, which is what the
    host answers for the non-numeric strings the examples use (such as
    "abc").  The other services are not exercised by the examples and
    answer the empty string. *)
Fixpoint digits_value (acc : Z) (s : jsstring) : option Z :=
  match s with
  | [] => Some acc
  | c :: t =>
      if ((48 <=? c) && (c <=? 57))%N
      then digits_value (10 * acc + (Z.of_N c - 48)) t
      else None
  end.

Definition example_StringToNumber (s : jsstring) : float :=
  match s, digits_value 0 s with
  | _ :: _, Some z =>
      if (length s <=? 15)%nat then PrimFloat.of_uint63 (Uint63.of_Z z) else nan
  | _, _ => nan
  end.

Definition example_runtime : Runtime :=
  {| StringToNumber := example_StringToNumber;
     NumberToString := λ _, [];
     toFixed := λ _ _, [];
     encodeURIComponent := λ _, [];
     toLocaleDateString := λ _, [] |}.

(** ** Data for worked examples *)

(** [?time=12&country=US&countryName=United%20States], after the
    browser has split and decoded it. *)
Definition example_qp : QueryParams :=
  useQueryParams [("time", str "12"); ("country", str "US");
                  ("countryName", str "United States")]%string.

Definition example_row (id : option Z) (name : string) (time : float)
    (country : string) : LeaderboardRow :=
  {| Row.id := id; Row.name := str name; Row.age := None; Row.gender := None;
     Row.country := str country; Row.time_seconds := time;
     Row.created_at := None; Row.t_qr := None |}.

Definition example_me : MeRow :=
  {| row := example_row None "Ann" 9.8 "US";
     rank_country := Some 3; rank_global := None |}.

Definition example_rows : list LeaderboardRow :=
  [ example_row (Some 7) "Bob" 9.5 "US";
    example_row (Some 8) "Ann" 9.8 "US";
    example_row (Some 9) "Ann" 9.8 "US";
    example_row (Some 10) "Ann" 9.9 "US" ].

(** A backend that answers HTTP 400 with the text "duplicate entry". *)
Definition example_rejection : Response (option Registered.t) :=
  {| ok := false; text := Normal (str "duplicate entry");
     json := Throw {| err_name := str "SyntaxError";
                      message := str "Unexpected token d in JSON" |} |}.

Definition example_rejecting (req : Request)
  : Completion (Response (option Registered.t)) :=
  Normal example_rejection.

(** A backend that answers HTTP 200 with [me] and the country
    leaderboard, and no global leaderboard. *)
Definition example_accepting (req : Request)
  : Completion (Response (option Registered.t)) :=
  Normal {| ok := true; text := Normal [];
            json := Normal (Some {| Registered.me := Some example_me;
                                    Registered.leaderboard_country := Some example_rows;
                                    Registered.leaderboard_global := None |}) |}.

Definition example_form (age : string) : AppState :=
  {| step := form_step; submitting := false; error := []; rankPreview := None;
     form := {| FormState.name := str " Ann "; FormState.age := str age;
                FormState.gender := [] |};
     me := None; lbCountry := []; lbGlobal := [] |}.

(** ** The handler at its suspension point *)

(** [err?.message || String(err)], the text the catch clause displays. *)
Definition error_text (err : JsError) : jsstring :=
  or_string (Some (message err)) (String_error err).

(** The state that is rendered while the handler awaits the answer to
    its request: [setSubmitting(true); setError("")] have run, nothing
    else has. *)
Definition onSubmit_pending (a : AppState) : AppState :=
  app ((setSubmitting true;; setError []) {| app := a; sent := [] |}).2.


(** ** The table of the JavaScript copy

    The row of the older copy of the component: the key falls back with
    [r.id || ...] and the date with [r.created_at || r.t_qr || Date.now()].
    The cells hold what the TypeScript row holds (the copy lays the
    columns out in another order). *)
Definition tr_js `{Runtime} (highlight : option LeaderboardRow) (now : Z)
    (idx : nat) (r : LeaderboardRow) : RowView :=
  {| key := match Row.id r with
            | Some 0 | None => Row.country r ++ str "-" ++ String_int (Z.of_nat idx)
            | Some i => String_int i
            end;
     className := if isYou highlight r then str "bg-lime-500/10" else [];
     td_index := Num (Z.of_nat idx + 1);
     td_time := Text (toFixed (Number (VNumber (Row.time_seconds r))) 2);
     td_name := Text (Row.name r);
     td_age := from_option Num (Text []) (Row.age r);
     td_gender := Text (default [] (Row.gender r));
     td_country := Text (Row.country r);
     td_date := Text (toLocaleDateString
                        match or_else (or_else (Row.created_at r) (Row.t_qr r)) None with
                        | Some d => inl d
                        | None => inr now
                        end) |}.

Definition Table_js `{Runtime} (title : jsstring) (rows : list LeaderboardRow)
    (highlight : option LeaderboardRow) (now : Z) : TableView :=
  {| title := title; tbody := imap (tr_js highlight now) rows |}.

(** ** More data for worked examples *)

(** A backend that answers the rank preview with rank [n]. *)
Definition example_preview (n : Z) : Response (option RankPreview.t) :=
  {| ok := true; text := Normal [];
     json := Normal (Some {| RankPreview.rank := Some n |}) |}.

Definition example_previewing (n : Z) (req : Request)
  : Completion (Response (option RankPreview.t)) :=
  Normal (example_preview n).

(** A backend that cannot be reached. *)
Definition example_unreachable (req : Request)
  : Completion (Response (option Registered.t)) :=
  Throw (TypeError (str "Failed to fetch")).

Definition example_world (a : AppState) : World := {| app := a; sent := [] |}.

(** * Properties *)

(** ** Strings and numerals *)

Lemma unstr_str (s : string) : unstr (str s) = s.
Proof.
  unfold unstr, str. rewrite <- list_fmap_compose.
  rewrite (list_fmap_ext _ (λ a, a) (list_ascii_of_string s)).
  - rewrite list_fmap_id. apply string_of_list_ascii_of_string.
  - intros _ a _. simpl. apply ascii_N_embedding.
Qed.

(** [String_int n] is the decimal numeral of [n]. *)
Lemma parse_decimal_String_int (n : Z) : parse_decimal (String_int n) = Some n.
Proof.
  unfold parse_decimal, String_int. rewrite unstr_str, NilZero.isi.
  - simpl. f_equal. apply DecimalZ.of_to.
  - destruct n as [|p|p]; simpl; try discriminate.
    intros [= E]. exact (Unsigned.to_uint_nonnil p E).
  - destruct n as [|p|p]; simpl; try discriminate.
    intros [= E]. exact (Unsigned.to_uint_nonnil p E).
Qed.

(** ** ordinal *)

Example ordinal_1 : ordinal 1 = str "1st". Proof. reflexivity. Qed.
Example ordinal_11 : ordinal 11 = str "11th". Proof. reflexivity. Qed.
Example ordinal_21 : ordinal 21 = str "21st". Proof. reflexivity. Qed.
Example ordinal_102 : ordinal 102 = str "102nd". Proof. reflexivity. Qed.
Example ordinal_0 : ordinal 0 = str "0th". Proof. reflexivity. Qed.






(** ** trim *)

Lemma trimStart_split (s : jsstring) :
  ∃ pre, s = pre ++ trimStart s ∧ Forall (λ c, is_white_space c = true) pre.
Proof.
  induction s as [|c t [pre [E F]]]; simpl.
  - exists []. split; [reflexivity|constructor].
  - destruct (is_white_space c) eqn:W.
    + exists (c :: pre). split; [simpl; congruence|by constructor].
    + exists []. split; [reflexivity|constructor].
Qed.

Lemma trimStart_head (s : jsstring) (c : code_unit) :
  head (trimStart s) = Some c → is_white_space c = false.
Proof.
  induction s as [|d t IH]; simpl; [discriminate|].
  destruct (is_white_space d) eqn:W; [exact IH|].
  simpl. intros [= <-]. exact W.
Qed.

(** [trim s] is [s] without a leading and a trailing run of white space,
    and neither end of it is white space. *)
Lemma trim_spec (s : jsstring) :
  (∃ pre post, s = pre ++ trim s ++ post
     ∧ Forall (λ c, is_white_space c = true) pre
     ∧ Forall (λ c, is_white_space c = true) post)
  ∧ (∀ c, head (trim s) = Some c → is_white_space c = false)
  ∧ (∀ c, last (trim s) = Some c → is_white_space c = false).
Proof.
  unfold trim, trimEnd.
  destruct (trimStart_split s) as [pre [E F]].
  destruct (trimStart_split (reverse (trimStart s))) as [q [Eq Fq]].
  assert (Eu : trimStart s = reverse (trimStart (reverse (trimStart s))) ++ reverse q).
  { rewrite <- reverse_app, <- Eq. by rewrite reverse_involutive. }
  split; [|split].
  - exists pre, (reverse q). split; [|split].
    + by rewrite <- Eu.
    + exact F.
    + by apply Forall_reverse.
  - intros c Hc. apply (trimStart_head s).
    rewrite Eu. destruct (reverse (trimStart (reverse (trimStart s)))); [discriminate|exact Hc].
  - intros c Hc. rewrite last_reverse in Hc.
    by apply (trimStart_head (reverse (trimStart s))).
Qed.

Example trim_example :
  trim (str "  Ann Lee " ++ [0xA0%N]) = str "Ann Lee".
Proof. reflexivity. Qed.

(** ** Query parameters *)

(** A later entry of the same name wins. *)
Lemma useQueryParams_last (entries : list (string * jsstring)) (k : string)
    (v : jsstring) :
  useQueryParams (entries ++ [(k, v)]) !! k = Some v.
Proof.
  unfold useQueryParams. rewrite foldl_app. simpl. apply lookup_insert_eq.
Qed.

Lemma useQueryParams_other (entries : list (string * jsstring)) (k k' : string)
    (v : jsstring) :
  k ≠ k' →
  useQueryParams (entries ++ [(k, v)]) !! k' = useQueryParams entries !! k'.
Proof.
  intros Hne. unfold useQueryParams. rewrite foldl_app. simpl.
  by apply lookup_insert_ne.
Qed.

(** ** The registration payload *)

(** Unfold the computation monad down to matches on what the endpoint
    answered. *)
Ltac unfold_M :=
  cbv [mbind M_bind mret M_ret fetch gets modify throw await read
       try_catch_finally try_catch
       setStep setSubmitting setError setRankPreview setForm setMe
       setLbCountry setLbGlobal] in *.

Ltac run_handler := unfold submit, onSubmit in *; unfold_M; simpl in *.

(** The handler issues exactly one request, the registration POST built
    from the query parameters and the form as they stand. *)
Lemma submit_sent `{Runtime} qp endpoint (a : AppState) :
  sent (submit qp endpoint a) = [register_request qp (form a)].
Proof.
  run_handler.
  destruct (endpoint _) as [res|e]; simpl; [|reflexivity].
  destruct (ok res); simpl.
  - destruct (json res) as [[d|]|e]; reflexivity.
  - destruct (text res) as [msg|e]; reflexivity.
Qed.

(** Members of the serialised payload. *)

Lemma field_cons (k k' : string) (v : value) (o : list (string * value)) :
  field ((k', v) :: o) k = if decide (k' = k) then v else field o k.
Proof.
  unfold field. simpl. destruct (decide (k' = k)); [reflexivity|].
  by destruct (list_find _ o) as [[i [k2 v2]]|].
Qed.

Lemma member_cons (k k' : string) (j : Json) (o : JsonObject) :
  member k ((k', j) :: o) = if decide (k' = k) then Some j else member k o.
Proof.
  unfold member. simpl. destruct (decide (k' = k)); [reflexivity|].
  by destruct (list_find _ o) as [[i [k2 v2]]|].
Qed.

Lemma member_absent (k : string) (o : list (string * value)) :
  k ∉ o.*1 → member k (JSON_stringify o) = None.
Proof.
  induction o as [|[k' v] o IH]; [reflexivity|].
  rewrite fmap_cons, not_elem_of_cons. intros [Hne Hk]. simpl in Hne.
  unfold JSON_stringify in *. simpl.
  destruct (stringify_value v); simpl; [|by apply IH].
  rewrite member_cons. destruct (decide (k' = k)); [congruence|by apply IH].
Qed.

(** A member of the serialised object is the serialisation of the
    property of that name. *)
Lemma member_stringify (k : string) (o : list (string * value)) :
  NoDup o.*1 → member k (JSON_stringify o) = stringify_value (field o k).
Proof.
  induction o as [|[k' v] o IH]; [reflexivity|].
  rewrite fmap_cons, NoDup_cons. intros [Hk' Hnd]. simpl in Hk'.
  rewrite field_cons. unfold JSON_stringify in *. simpl.
  destruct (decide (k' = k)) as [->|Hne].
  - destruct (stringify_value v); simpl.
    + rewrite member_cons. by rewrite decide_True.
    + by apply member_absent.
  - destruct (stringify_value v); simpl; [|by apply IH].
    rewrite member_cons. rewrite decide_False by done. by apply IH.
Qed.

Lemma payload_NoDup `{Runtime} qp f : NoDup (payload qp f).*1.
Proof. apply (bool_decide_unpack _). vm_compute. exact I. Qed.

Lemma is_nan_not_finite (x : float) : is_nan x = true → is_finite x = false.
Proof. unfold is_finite. by intros ->. Qed.

Lemma is_finite_not_nan (x : float) : is_finite x = true → is_nan x = false.
Proof. unfold is_finite. by destruct (is_nan x). Qed.

(** What [JSON.stringify] writes for a number is [null] or a finite
    number. *)
Lemma stringify_number (x : float) :
  stringify_value (VNumber x) = Some JNull
  ∨ ∃ y, stringify_value (VNumber x) = Some (JNumber y) ∧ is_finite y = true.
Proof.
  simpl. destruct (is_finite x) eqn:F; [right|by left].
  destruct (is_zero x); eauto.
Qed.

(** C7. The payload has the members event, device, country, time, t,
    nonce, sig, name, age, gender; each QR member is the query parameter
    of the same name, unchanged ([undefined] when the parameter is
    absent); [name] is the form's name trimmed; [age] is the age string
    coerced to a number, or [null] when the string is empty; [gender] is
    the form's gender, or [null] when it is empty.  The handler sends
    this payload, serialised, as the body of its one request, in which
    each QR member is the string of the query parameter, and is left out
    when the parameter is absent. *)
Theorem payload_spec `{Runtime} (qp : QueryParams) (endpoint : Request → _)
    (a : AppState) :
  let f := form a in
  let p := payload qp f in
  p.*1 = qr_fields ++ ["name"; "age"; "gender"]%string
  ∧ (∀ k, k ∈ qr_fields → field p k = from_option VString VUndefined (qp !! k))
  ∧ field p "name" = VString (trim (FormState.name f))
  ∧ field p "age" = (if bool_decide (FormState.age f = []) then VNull
                     else VNumber (StringToNumber (FormState.age f)))
  ∧ field p "gender" = (if bool_decide (FormState.gender f = []) then VNull
                        else VString (FormState.gender f))
  ∧ (∃ req, sent (submit qp endpoint a) = [req]
            ∧ body req = Some (JSON_stringify p))
  ∧ (∀ k, k ∈ qr_fields → member k (JSON_stringify p) = JString <$> qp !! k).
Proof.
  intros f p.
  assert (Q : ∀ k, k ∈ qr_fields → field p k = from_option VString VUndefined (qp !! k)).
  { intros k Hk. unfold qr_fields in Hk.
    repeat (apply elem_of_cons in Hk as [->|Hk]; [reflexivity|]).
    by apply elem_of_nil in Hk. }
  assert (W : ∀ k, k ∈ qr_fields → member k (JSON_stringify p) = JString <$> qp !! k).
  { intros k Hk. unfold p. rewrite member_stringify by apply payload_NoDup.
    fold p. rewrite (Q k Hk). by destruct (qp !! k). }
  repeat split; try done.
  - unfold p, payload, field. simpl.
    destruct (FormState.age f); reflexivity.
  - unfold p, payload, field, or_value. simpl.
    destruct (FormState.gender f); reflexivity.
  - exists (register_request qp f). split; [apply submit_sent|reflexivity].
Qed.

(** C2. In the body that the handler submits, the member [age] is [null]
    when the age string is empty and when it is not numeric (its
    coercion is NaN); it is always [null] or a finite number, so never
    NaN and never the empty string. *)
Theorem submitted_age `{Runtime} (qp : QueryParams) (endpoint : Request → _)
    (a : AppState) :
  ∃ req j,
    sent (submit qp endpoint a) = [req] ∧ body req = Some j
    ∧ (FormState.age (form a) = [] → member "age" j = Some JNull)
    ∧ (is_nan (StringToNumber (FormState.age (form a))) = true →
       member "age" j = Some JNull)
    ∧ (member "age" j = Some JNull
       ∨ ∃ x, member "age" j = Some (JNumber x) ∧ is_finite x = true)
    ∧ member "age" j ≠ Some (JString [])
    ∧ (∀ x, member "age" j = Some (JNumber x) → is_nan x = false).
Proof.
  exists (register_request qp (form a)), (JSON_stringify (payload qp (form a))).
  split; [apply submit_sent|]. split; [reflexivity|].
  rewrite member_stringify by apply payload_NoDup.
  assert (E : field (payload qp (form a)) "age"
              = if nonempty (FormState.age (form a))
                then VNumber (StringToNumber (FormState.age (form a))) else VNull)
    by reflexivity.
  rewrite E. clear E.
  destruct (FormState.age (form a)) as [|c t] eqn:Ea; simpl nonempty; cbv iota.
  { repeat split; try done. by left. }
  set (x := StringToNumber (c :: t)).
  assert (C := stringify_number x).
  repeat split.
  - discriminate.
  - intros N. simpl. by rewrite (is_nan_not_finite _ N).
  - exact C.
  - destruct C as [->|[y [-> _]]]; discriminate.
  - intros z Ez. destruct C as [C|[y [C F]]]; rewrite C in Ez; [discriminate|].
    injection Ez as <-. by apply is_finite_not_nan.
Qed.

(** ** The submit handler *)

(** C3. When the registration POST is answered with a non-success status
    and body text [msg], the handler leaves the error message equal to
    [msg], or to "Failed to register" when [msg] is empty; the step, me
    and both leaderboards are as before; [submitting] is false again.
    On the form step the message is shown and the submit control is
    enabled. *)
Theorem submit_rejected `{Runtime} (qp : QueryParams) (endpoint : Request → _)
    (a : AppState) (res : Response (option Registered.t)) (msg : jsstring)
    (now : Z) :
  endpoint (register_request qp (form a)) = Normal res →
  ok res = false →
  text res = Normal msg →
  step a = form_step →
  let a' := app (submit qp endpoint a) in
  error a' = (if bool_decide (msg = []) then str "Failed to register" else msg)
  ∧ step a' = form_step
  ∧ me a' = me a ∧ lbCountry a' = lbCountry a ∧ lbGlobal a' = lbGlobal a
  ∧ form a' = form a
  ∧ submitting a' = false
  ∧ ∃ v, App qp a' now = FormStep v
         ∧ error_line v = Element (error a')
         ∧ submit_disabled v = false
         ∧ submit_label v = str "Submit result".
Proof.
  intros He Hok Ht Hs a'.
  assert (Ea : a' = {| step := step a; submitting := false;
                       error := if bool_decide (msg = []) then str "Failed to register"
                                else msg;
                       rankPreview := rankPreview a; form := form a; me := me a;
                       lbCountry := lbCountry a; lbGlobal := lbGlobal a |}).
  { unfold a'. run_handler. rewrite He. simpl. rewrite Hok. simpl. rewrite Ht. simpl.
    by destruct msg. }
  rewrite Ea. simpl. repeat split; try done.
  unfold App. simpl. rewrite Hs. eexists. split; [reflexivity|]. simpl.
  repeat split. by destruct msg.
Qed.

(** C4. The handler either stores [me] and both leaderboards (an absent
    leaderboard as the empty list) and moves to the leaderboards step,
    which happens exactly when the request is answered with a success
    status and a body that parses to an object, or it leaves all three
    and the step as they were. *)
Theorem submit_atomic `{Runtime} (qp : QueryParams) (endpoint : Request → _)
    (a : AppState) :
  let a' := app (submit qp endpoint a) in
  match endpoint (register_request qp (form a)) with
  | Normal res =>
      if ok res then
        match json res with
        | Normal (Some data) =>
            me a' = Registered.me data
            ∧ lbCountry a' = default [] (Registered.leaderboard_country data)
            ∧ lbGlobal a' = default [] (Registered.leaderboard_global data)
            ∧ step a' = leaderboards_step
            ∧ error a' = [] ∧ submitting a' = false
        | Normal None | Throw _ => unchanged a a' ∧ submitting a' = false
        end
      else unchanged a a' ∧ submitting a' = false
  | Throw _ => unchanged a a' ∧ submitting a' = false
  end.
Proof.
  intros a'. unfold a', unchanged. run_handler.
  destruct (endpoint _) as [res|e]; simpl; [|done].
  destruct (ok res); simpl.
  - destruct (json res) as [[d|]|e]; simpl; done.
  - destruct (text res) as [msg|e]; simpl; done.
Qed.

(** ** The leaderboard table *)

Lemma tr_highlighted `{Runtime} highlight now idx r :
  highlighted (tr highlight now idx r) = isYou highlight r.
Proof. unfold highlighted, tr. simpl. by destruct (isYou highlight r). Qed.

Lemma Table_lookup `{Runtime} title rows highlight now (i : nat) :
  tbody (Table title rows highlight now) !! i = tr highlight now i <$> rows !! i.
Proof. apply list_lookup_imap. Qed.

(** C5. With a MeRow [m] as the highlight, the row rendered at position
    [i] is highlighted if and only if the name, the time (under [===])
    and the country of the input row at [i] equal those of [m]; the id is
    not looked at, so any other row with the same three values has the
    same highlighting. *)
Theorem highlight_iff `{Runtime} (title : jsstring) (rows : list LeaderboardRow)
    (m : MeRow) (now : Z) (i : nat) (r : LeaderboardRow) :
  rows !! i = Some r →
  ∃ v, tbody (Table title rows (Some (row m)) now) !! i = Some v
    ∧ (highlighted v = true ↔
         Row.name r = Row.name m
         ∧ strict_equal (Row.time_seconds m) (Row.time_seconds r) = true
         ∧ Row.country r = Row.country m)
    ∧ (∀ j r' v',
         rows !! j = Some r' →
         tbody (Table title rows (Some (row m)) now) !! j = Some v' →
         Row.name r' = Row.name r →
         Row.time_seconds r' = Row.time_seconds r →
         Row.country r' = Row.country r →
         highlighted v' = highlighted v).
Proof.
  intros Hi. exists (tr (Some (row m)) now i r).
  split; [by rewrite Table_lookup, Hi|]. split.
  - rewrite tr_highlighted. unfold isYou.
    rewrite !andb_true_iff, !bool_decide_eq_true. intuition congruence.
  - intros j r' v' Hj Hv' En Et Ec.
    rewrite Table_lookup, Hj in Hv'. injection Hv' as <-.
    rewrite !tr_highlighted. unfold isYou. by rewrite En, Et, Ec.
Qed.

(** C9. The table body has one rendered row per input row, in input
    order: the row at position [i] shows the index [i + 1] and the fields
    of the input row at [i].  Nothing is sorted or dropped, and rendering
    again from the same rows and highlight, at whatever moment, shows
    the same order and the same highlighting. *)
Theorem Table_order `{Runtime} (title : jsstring) (rows : list LeaderboardRow)
    (highlight : option LeaderboardRow) (now : Z) :
  let t := Table title rows highlight now in
  length (tbody t) = length rows
  ∧ td_index <$> tbody t = (λ i, Num (Z.of_nat i)) <$> seq 1 (length rows)
  ∧ td_name <$> tbody t = (λ r, Text (Row.name r)) <$> rows
  ∧ td_country <$> tbody t = (λ r, Text (Row.country r)) <$> rows
  ∧ highlighted <$> tbody t = isYou highlight <$> rows
  ∧ (∀ i r, rows !! i = Some r → tbody t !! i = Some (tr highlight now i r))
  ∧ (∀ now', without_date <$> tbody (Table title rows highlight now')
             = without_date <$> tbody t).
Proof.
  intros t. unfold t, Table. simpl. repeat split.
  - apply length_imap.
  - rewrite fmap_imap.
    rewrite <- (imap_seq rows (λ i, Num (Z.of_nat i)) 1).
    apply imap_ext. intros i r _. simpl. f_equal. lia.
  - rewrite fmap_imap. rewrite <- imap_const. by apply imap_ext.
  - rewrite fmap_imap. rewrite <- imap_const. by apply imap_ext.
  - rewrite fmap_imap. rewrite <- imap_const. apply imap_ext.
    intros i r _. apply tr_highlighted.
  - intros i r Hi. by rewrite list_lookup_imap, Hi.
  - intros now'. rewrite !fmap_imap. by apply imap_ext.
Qed.

(** ** Numbers compared with zero *)

Lemma SFeqb_diag_nan (y : spec_float) : SFeqb y y = false → y = S754_nan.
Proof.
  destruct y as [sg|sg| |sg m e]; unfold SFeqb; simpl; try (by destruct sg); [done|].
  rewrite Z.compare_refl, Pos.compare_refl. by destruct sg.
Qed.

(** [0 < NaN] is false. *)
Lemma nan_not_positive (x : float) : is_nan x = true → (0 <? x)%float = false.
Proof.
  unfold is_nan. rewrite negb_true_iff, FloatAxioms.eqb_spec. intros E.
  rewrite ltb_spec, (SFeqb_diag_nan _ E). reflexivity.
Qed.

(** [0 < x] is false when [x] is zero of either sign. *)
Lemma zero_not_positive (x : float) : is_zero x = true → (0 <? x)%float = false.
Proof.
  unfold is_zero. rewrite FloatAxioms.eqb_spec, ltb_spec.
  change (Prim2SF PrimFloat.zero) with (S754_zero false).
  change (Prim2SF 0) with (S754_zero false).
  destruct (Prim2SF x) as [sg|sg| |sg m e]; try done; by destruct sg.
Qed.

(** ** The rank preview effect *)

Lemma run_sent `{Runtime} qp endpoint ignore (w : World) :
  sent (run qp endpoint ignore w).2 = sent w ++ [preview_request qp].
Proof.
  unfold run. unfold_M. simpl.
  destruct (endpoint _) as [res|e]; simpl; [|reflexivity].
  destruct (ok res); simpl; [|reflexivity].
  destruct (json res) as [[[[n|]]|]|e], ignore; reflexivity.
Qed.

Lemma effect_sent `{Runtime} qp endpoint ignore (w : World) :
  sent (rank_preview_effect qp endpoint ignore w).2
  = if nonempty (countryCode qp) && (0 <? timeSec qp)%float
    then sent w ++ [preview_request qp] else sent w.
Proof.
  unfold rank_preview_effect.
  destruct (nonempty (countryCode qp) && (0 <? timeSec qp)%float); [apply run_sent|done].
Qed.

Lemma timeSec_absent `{Runtime} (qp : QueryParams) :
  qp !! "time"%string = None → timeSec qp = 0%float.
Proof. unfold timeSec, prop. by intros ->. Qed.

Lemma timeSec_present `{Runtime} (qp : QueryParams) (t : jsstring) :
  qp !! "time"%string = Some t → t ≠ [] → timeSec qp = StringToNumber t.
Proof. unfold timeSec, prop. intros -> Ht. by destruct t. Qed.

(** C6. The effect issues the rank preview request (one GET to the
    preview URL) if and only if [countryCode] is non-empty and
    [timeSec > 0]; otherwise it issues nothing.  In particular nothing is
    issued when [countryCode] is empty, when [timeSec] is zero, and when
    the [time] parameter is missing or reads as NaN. *)
Theorem rank_preview_issued `{Runtime} (qp : QueryParams) (endpoint : Request → _)
    (ignore : bool) (w : World) :
  let w' := (rank_preview_effect qp endpoint ignore w).2 in
  (sent w' = sent w ++ [preview_request qp] ∨ sent w' = sent w)
  ∧ (sent w' = sent w ++ [preview_request qp]
     ↔ countryCode qp ≠ [] ∧ (0 <? timeSec qp)%float = true)
  ∧ (countryCode qp = [] → sent w' = sent w)
  ∧ (is_zero (timeSec qp) = true → sent w' = sent w)
  ∧ (qp !! "time"%string = None → sent w' = sent w)
  ∧ (∀ t, qp !! "time"%string = Some t → is_nan (StringToNumber t) = true →
          sent w' = sent w).
Proof.
  intros w'. unfold w'. rewrite effect_sent.
  assert (Hneq : sent w ≠ sent w ++ [preview_request qp]).
  { intros E. apply (f_equal length) in E. rewrite length_app in E. simpl in E. lia. }
  split; [by destruct (_ && _); auto|].
  split; [split|].
  - intros E. destruct (nonempty (countryCode qp)) eqn:Hc; simpl in E;
      [|by destruct Hneq].
    destruct (0 <? timeSec qp)%float; [|by destruct Hneq].
    split; [|done]. by destruct (countryCode qp).
  - intros [Hc Ht]. rewrite Ht. by destruct (countryCode qp).
  - repeat split.
    + by intros ->.
    + intros Hz. by rewrite (zero_not_positive _ Hz), andb_false_r.
    + intros Ha. rewrite (timeSec_absent _ Ha). by rewrite andb_false_r.
    + intros t Ht Hn. destruct t as [|c t].
      * unfold timeSec, prop. rewrite Ht. simpl. by rewrite andb_false_r.
      * rewrite (timeSec_present _ _ Ht) by done.
        by rewrite (nan_not_positive _ Hn), andb_false_r.
Qed.

(** ** The form step and the leaderboards step *)

(** C8. On the form step, the Location stat shows the dash when neither
    [countryName] nor [country] is among the query parameters, the
    Date & Time stat shows the dash when [localDT] is not, and a missing
    [time] parameter makes [timeSec] the number zero. *)
Theorem Hero_absent `{Runtime} (qp : QueryParams) (a : AppState) (now : Z) :
  step a = form_step →
  ∃ v, App qp a now = FormStep v
    ∧ (qp !! "countryName"%string = None → qp !! "country"%string = None →
       location (hero v) = em_dash)
    ∧ (qp !! "localDT"%string = None → date_time (hero v) = em_dash)
    ∧ (qp !! "time"%string = None →
       timeSec qp = 0%float ∧ your_time (hero v) = toFixed 0 2 ++ str " sec").
Proof.
  intros Hs. unfold App. rewrite Hs. eexists. split; [reflexivity|]. simpl.
  split; [|split].
  - intros Hn Hc. unfold countryName. by rewrite Hn, Hc.
  - by intros ->.
  - intros Ht. rewrite (timeSec_absent _ Ht). by split.
Qed.

(** C10. On the leaderboards step the country (global) rank line is
    rendered exactly when [me] carries a country (global) rank other
    than zero, and then shows [ordinal] of that rank; a rank of zero and
    an absent rank give no line. *)
Theorem rank_lines `{Runtime} (qp : QueryParams) (a : AppState) (now : Z) :
  step a = leaderboards_step →
  ∃ v, App qp a now = LeaderboardsStep v
    ∧ (∀ l, country_rank v = Element l ↔
            ∃ n, me a ≫= rank_country = Some n ∧ n ≠ 0
                 ∧ l = {| label := str "Your country rank: "; rank_text := ordinal n |})
    ∧ (∀ l, global_rank v = Element l ↔
            ∃ n, me a ≫= rank_global = Some n ∧ n ≠ 0
                 ∧ l = {| label := str "Global rank: "; rank_text := ordinal n |})
    ∧ (me a ≫= rank_country = Some 0 → country_rank v = Zero)
    ∧ (me a ≫= rank_country = None → country_rank v = Undefined)
    ∧ (me a ≫= rank_global = Some 0 → global_rank v = Zero)
    ∧ (me a ≫= rank_global = None → global_rank v = Undefined).
Proof.
  intros Hs. unfold App. rewrite Hs. eexists. split; [reflexivity|]. simpl.
  assert (G : ∀ (x : option Z) (el : Z → RankLine) l,
             and_number x el = Element l ↔ ∃ n, x = Some n ∧ n ≠ 0 ∧ l = el n).
  { intros [[|p|p]|] el l; simpl; split;
      try (intros [= <-]; eexists; repeat split; done);
      try discriminate;
      intros [n [E [Hn ->]]]; try discriminate; injection E as <-; done. }
  split; [apply G|]. split; [apply G|].
  repeat split; by intros ->.
Qed.

(** * Worked examples *)

Example query_params_example :
  countryCode example_qp = str "US"
  ∧ countryName example_qp = str "United States"
  ∧ timeSec (H := example_runtime) example_qp = 12%float.
Proof. by vm_compute. Qed.

(** The age "abc" is NaN in the payload object and [null] in the body
    that is sent; the age "30" is the number 30 in both. *)
Example age_not_numeric :
  let f := form (example_form "abc") in
  (∃ x, field (payload (H := example_runtime) example_qp f) "age" = VNumber x
        ∧ is_nan x = true)
  ∧ member "age" (JSON_stringify (payload (H := example_runtime) example_qp f))
    = Some JNull.
Proof. split; [eexists; split; [reflexivity|]|]; by vm_compute. Qed.

Example age_numeric :
  member "age" (JSON_stringify (payload (H := example_runtime) example_qp
                                  (form (example_form "30"))))
  = Some (JNumber 30).
Proof. by vm_compute. Qed.

Example body_example :
  JSON_stringify (payload (H := example_runtime) example_qp (form (example_form "")))
  = [("country", JString (str "US")); ("time", JString (str "12"));
     ("name", JString (str "Ann")); ("age", JNull); ("gender", JNull)]%string.
Proof. by vm_compute. Qed.

(** HTTP 400 with body "duplicate entry". *)
Lemma submit_rejected_witness :
  let a := example_form "30" in
  let a' := app (submit (H := example_runtime) example_qp example_rejecting a) in
  example_rejecting (register_request (H := example_runtime) example_qp (form a))
  = Normal example_rejection
  ∧ ok example_rejection = false
  ∧ text example_rejection = Normal (str "duplicate entry")
  ∧ step a = form_step
  ∧ error a' = str "duplicate entry"
  ∧ step a' = form_step
  ∧ submitting a' = false.
Proof.
  intros a a'.
  destruct (submit_rejected (H := example_runtime) example_qp example_rejecting a
              example_rejection (str "duplicate entry") 0
              eq_refl eq_refl eq_refl eq_refl)
    as (E & S & _ & _ & _ & _ & B & _).
  repeat split; assumption.
Defined.

(** HTTP 200 with [me] ranked third in the country. *)
Example submit_accepted :
  let a' := app (submit (H := example_runtime) example_qp example_accepting
                   (example_form "30")) in
  step a' = leaderboards_step ∧ me a' = Some example_me
  ∧ lbCountry a' = example_rows ∧ lbGlobal a' = []
  ∧ ∃ v, App (H := example_runtime) example_qp a' 0 = LeaderboardsStep v
         ∧ country_rank v = Element {| label := str "Your country rank: ";
                                       rank_text := str "3rd" |}
         ∧ global_rank v = Undefined
         ∧ highlighted <$> tbody (country_table v) = [false; true; true; false].
Proof. vm_compute. repeat split. eexists. by repeat split. Qed.

Lemma highlight_iff_witness :
  example_rows !! 1%nat = Some (example_row (Some 8) "Ann" 9.8 "US")
  ∧ ∃ v, tbody (Table (H := example_runtime) [] example_rows (Some (row example_me)) 0)
           !! 1%nat = Some v
         ∧ highlighted v = true.
Proof.
  split; [reflexivity|].
  destruct (highlight_iff (H := example_runtime) [] example_rows example_me 0 1
              (example_row (Some 8) "Ann" 9.8 "US") eq_refl)
    as (v & Hv & Hh & _).
  exists v. split; [exact Hv|]. apply Hh. by vm_compute.
Defined.

Lemma Hero_absent_witness :
  step initial = form_step
  ∧ ∃ v, App (H := example_runtime) ∅ initial 0 = FormStep v
         ∧ location (hero v) = em_dash
         ∧ date_time (hero v) = em_dash
         ∧ timeSec (H := example_runtime) ∅ = 0%float.
Proof.
  split; [reflexivity|].
  destruct (Hero_absent (H := example_runtime) ∅ initial 0 eq_refl)
    as (v & Hv & Hl & Hd & Ht).
  exists v. split; [exact Hv|].
  split; [by apply Hl|]. split; [by apply Hd|]. by apply Ht.
Defined.

Lemma rank_lines_witness :
  let a := app (submit (H := example_runtime) example_qp example_accepting
                  (example_form "30")) in
  step a = leaderboards_step
  ∧ ∃ v, App (H := example_runtime) example_qp a 0 = LeaderboardsStep v
         ∧ country_rank v = Element {| label := str "Your country rank: ";
                                       rank_text := ordinal 3 |}
         ∧ global_rank v = Undefined.
Proof.
  intros a. split; [reflexivity|].
  destruct (rank_lines (H := example_runtime) example_qp a 0 eq_refl)
    as (v & Hv & Hc & _ & _ & _ & _ & Hg).
  exists v. split; [exact Hv|]. split.
  - apply Hc. exists 3. by repeat split.
  - by apply Hg.
Defined.

(** * Further properties *)

(** ** ordinal away from the positive integers *)




(** ** The query-parameter reader *)

Lemma useQueryParams_snoc (entries : list (string * jsstring)) (k k' : string)
    (v : jsstring) :
  useQueryParams (entries ++ [(k', v)]) !! k
  = if decide (k' = k) then Some v else useQueryParams entries !! k.
Proof.
  destruct (decide (k' = k)) as [->|Hne].
  - apply useQueryParams_last.
  - by apply useQueryParams_other.
Qed.

(** X2. Reading a name from the parsed query parameters gives the value
    of the last entry of the search string with that name, and nothing
    when no entry has the name. *)
Theorem useQueryParams_lookup (entries : list (string * jsstring)) (k : string) :
  useQueryParams entries !! k = snd <$> last (filter (λ kv, kv.1 = k) entries).
Proof.
  induction entries as [|[k' v] entries IH] using rev_ind; [reflexivity|].
  rewrite useQueryParams_snoc, filter_app, IH.
  rewrite filter_cons, filter_nil. simpl.
  destruct (decide (k' = k)) as [->|Hne].
  - by rewrite last_snoc.
  - by rewrite app_nil_r.
Qed.

(** ** What the rank preview does to the state *)

(** X3. [run] never throws.  It stores the rank exactly when the request
    is answered with a success status, the body parses to an object with
    a numeric [rank], and the effect has not been cleaned up meanwhile;
    in every other case, and in every other piece of state, the
    component is as it was. *)
Theorem run_outcome `{Runtime} (qp : QueryParams) (endpoint : Request → _)
    (ignore : bool) (w : World) :
  let r := run qp endpoint ignore w in
  let a := app w in
  let a' := app r.2 in
  r.1 = Normal ()
  ∧ step a' = step a ∧ submitting a' = submitting a ∧ error a' = error a
  ∧ form a' = form a ∧ me a' = me a
  ∧ lbCountry a' = lbCountry a ∧ lbGlobal a' = lbGlobal a
  ∧ rankPreview a' =
      match endpoint (preview_request qp) with
      | Normal res =>
          if ok res && negb ignore then
            match json res with
            | Normal (Some data) =>
                match RankPreview.rank data with
                | Some n => Some n
                | None => rankPreview a
                end
            | Normal None | Throw _ => rankPreview a
            end
          else rankPreview a
      | Throw _ => rankPreview a
      end.
Proof.
  intros r a a'. unfold a', a, r, run. unfold_M. simpl.
  destruct (endpoint _) as [res|e]; simpl; [|by repeat split].
  destruct (ok res); simpl; [|by repeat split].
  destruct (json res) as [[[[n|]]|]|e], ignore; simpl; by repeat split.
Qed.

(** X4. A rank that the backend sends while the form is shown appears
    in the Hero as its ordinal, whatever the number: the preview has no
    truthiness gate, so a rank of zero is shown as "0th". *)
Theorem preview_shown `{Runtime} (qp : QueryParams) (endpoint : Request → _)
    (res : Response (option RankPreview.t)) (n : Z) (w : World) (now : Z) :
  countryCode qp ≠ [] →
  (0 <? timeSec qp)%float = true →
  endpoint (preview_request qp) = Normal res →
  ok res = true →
  json res = Normal (Some {| RankPreview.rank := Some n |}) →
  step (app w) = form_step →
  ∃ v, App qp (app (rank_preview_effect qp endpoint false w).2) now = FormStep v
       ∧ estimated_rank (hero v) = Some (ordinal n).
Proof.
  intros Hc Ht He Hok Hj Hs.
  unfold rank_preview_effect.
  replace (nonempty (countryCode qp)) with true by (by destruct (countryCode qp)).
  rewrite Ht. simpl.
  unfold run. unfold_M. simpl. rewrite He. simpl. rewrite Hok. simpl.
  rewrite Hj. simpl. unfold App. simpl. rewrite Hs.
  eexists. split; reflexivity.
Qed.

Lemma preview_shown_witness :
  let w := example_world initial in
  countryCode example_qp ≠ []
  ∧ (0 <? timeSec (H := example_runtime) example_qp)%float = true
  ∧ ∃ v, App (H := example_runtime) example_qp
           (app (rank_preview_effect (H := example_runtime) example_qp
                   (example_previewing 0) false w).2) 0 = FormStep v
         ∧ estimated_rank (hero v) = Some (str "0th").
Proof.
  intros w.
  assert (Hc : countryCode example_qp ≠ []).
  { vm_compute. intros E. discriminate E. }
  split; [exact Hc|]. split; [by vm_compute|].
  exact (preview_shown (H := example_runtime) example_qp (example_previewing 0)
           (example_preview 0) 0 w 0 Hc eq_refl eq_refl eq_refl eq_refl eq_refl).
Defined.

(** ** The Hero's location and date *)

(** X5. On the form step the Location stat shows the [countryName]
    parameter when it is present and not empty, otherwise the [country]
    parameter when that is present and not empty, otherwise the dash;
    the Date & Time stat shows [localDT] or the dash.  Neither stat is
    ever empty. *)
Theorem Hero_location `{Runtime} (qp : QueryParams) (a : AppState) (now : Z) :
  step a = form_step →
  ∃ v, App qp a now = FormStep v
    ∧ location (hero v) =
        match qp !! "countryName"%string, qp !! "country"%string with
        | Some (c :: n), _ => c :: n
        | _, Some (c :: n) => c :: n
        | _, _ => em_dash
        end
    ∧ date_time (hero v) =
        match qp !! "localDT"%string with
        | Some (c :: d) => c :: d
        | _ => em_dash
        end
    ∧ location (hero v) ≠ []
    ∧ date_time (hero v) ≠ [].
Proof.
  intros Hs. unfold App. rewrite Hs. eexists. split; [reflexivity|]. simpl.
  unfold countryName.
  destruct (qp !! "countryName"%string) as [[|c n]|],
           (qp !! "country"%string) as [[|c' n']|],
           (qp !! "localDT"%string) as [[|c'' d]|]; by repeat split.
Qed.

Lemma Hero_location_witness :
  step initial = form_step
  ∧ ∃ v, App (H := example_runtime) example_qp initial 0 = FormStep v
         ∧ location (hero v) = str "United States"
         ∧ date_time (hero v) = em_dash.
Proof.
  split; [reflexivity|].
  destruct (Hero_location (H := example_runtime) example_qp initial 0 eq_refl)
    as (v & Hv & Hl & Hd & _).
  exists v. split; [exact Hv|]. split; [exact Hl|exact Hd].
Defined.

(** ** The members of the submitted body *)

Lemma stringify_keys_cons (k : string) (v : value) (o : list (string * value)) :
  (JSON_stringify ((k, v) :: o)).*1
  = (if stringify_value v is Some _ then [k] else []) ++ (JSON_stringify o).*1.
Proof. unfold JSON_stringify. simpl. by destruct (stringify_value v). Qed.

(** Of properties copied from the query parameters, those whose
    parameter is present are written. *)
Lemma stringify_keys_qr (qp : QueryParams) (ks : list string)
    (o : list (string * value)) :
  (JSON_stringify (((λ k, (k, prop qp k)) <$> ks) ++ o)).*1
  = filter (λ k, is_Some (qp !! k)) ks ++ (JSON_stringify o).*1.
Proof.
  induction ks as [|k ks IH]; [reflexivity|].
  rewrite fmap_cons, <- app_comm_cons, stringify_keys_cons, IH, filter_cons.
  unfold prop. by destruct (qp !! k) as [v|].
Qed.

(** X6. The body holds, in this order, the QR members whose query
    parameter is present, then [name], [age] and [gender]; a QR member
    whose parameter is absent is not in the body at all, so the body has
    between three and ten members. *)
Theorem body_members `{Runtime} (qp : QueryParams) (f : FormState.t) :
  let b := JSON_stringify (payload qp f) in
  b.*1 = filter (λ k, is_Some (qp !! k)) qr_fields ++ ["name"; "age"; "gender"]%string
  ∧ (3 ≤ length b ≤ 10)%nat.
Proof.
  intros b.
  assert (E : b.*1 = filter (λ k, is_Some (qp !! k)) qr_fields
                     ++ ["name"; "age"; "gender"]%string).
  { unfold b.
    change (payload qp f)
      with (((λ k, (k, prop qp k)) <$> qr_fields)
            ++ [("name"%string, VString (trim (FormState.name f)));
                ("age"%string,
                 if nonempty (FormState.age f)
                 then VNumber (Number (VString (FormState.age f))) else VNull);
                ("gender"%string, or_value (VString (FormState.gender f)) VNull)]).
    rewrite stringify_keys_qr. f_equal.
    rewrite !stringify_keys_cons. unfold or_value. simpl.
    by destruct (nonempty (FormState.age f)), (nonempty (FormState.gender f)). }
  split; [exact E|].
  rewrite <- (length_fmap fst b), E, length_app. simpl.
  pose proof (length_filter (λ k, is_Some (qp !! k)) qr_fields) as L.
  unfold qr_fields in *. simpl in L. lia.
Qed.

(** ** The submitted name *)

Lemma trimStart_nil (s : jsstring) :
  trimStart s = [] ↔ Forall (λ c, is_white_space c = true) s.
Proof.
  induction s as [|c t IH]; simpl; [by split|].
  destruct (is_white_space c) eqn:W.
  - rewrite IH. split; [by constructor|by inversion 1].
  - split; [discriminate|]. inversion 1; congruence.
Qed.

Lemma trim_nil (s : jsstring) :
  trim s = [] ↔ Forall (λ c, is_white_space c = true) s.
Proof.
  rewrite <- trimStart_nil. unfold trim, trimEnd.
  destruct (trimStart s) as [|c u] eqn:E; [by split|].
  split; [|discriminate]. intros R.
  apply (f_equal reverse) in R. rewrite reverse_involutive, reverse_nil in R.
  apply trimStart_nil in R. apply Forall_reverse in R.
  rewrite reverse_involutive in R. inversion R as [|? ? W _]; subst.
  assert (Hh : head (trimStart s) = Some c) by (by rewrite E).
  apply trimStart_head in Hh. congruence.
Qed.

(** X7. The [name] member of the body is the form's name trimmed, and
    the handler sends it whatever it is: a name made only of white space
    is submitted as the empty string. *)
Theorem submitted_name `{Runtime} (qp : QueryParams) (endpoint : Request → _)
    (a : AppState) :
  ∃ req j,
    sent (submit qp endpoint a) = [req] ∧ body req = Some j
    ∧ member "name" j = Some (JString (trim (FormState.name (form a))))
    ∧ (member "name" j = Some (JString [])
       ↔ Forall (λ c, is_white_space c = true) (FormState.name (form a))).
Proof.
  exists (register_request qp (form a)), (JSON_stringify (payload qp (form a))).
  split; [apply submit_sent|]. split; [reflexivity|].
  rewrite member_stringify by apply payload_NoDup.
  change (field (payload qp (form a)) "name")
    with (VString (trim (FormState.name (form a)))).
  simpl. split; [reflexivity|]. rewrite <- trim_nil.
  split; [by intros [= ->]|by intros ->].
Qed.

Example name_of_spaces :
  member "name" (JSON_stringify (payload (H := example_runtime) example_qp
                                   {| FormState.name := str "   ";
                                      FormState.age := []; FormState.gender := [] |}))
  = Some (JString []).
Proof. by vm_compute. Qed.

(** ** The handler on its failure paths, and what it leaves alone *)

(** The displayed text of a caught error is its message, or its name
    when the message is empty. *)
Lemma error_text_spec (e : JsError) :
  error_text e = if nonempty (message e) then message e else err_name e.
Proof.
  unfold error_text, or_string, String_error.
  destruct (message e) as [|c m]; simpl; [|reflexivity].
  by destruct (err_name e).
Qed.

(** X8. When [fetch] rejects, when reading the text of a non-success
    response fails, or when parsing the body of a success response
    fails, the error shown is the message of the thrown error, or its
    name when the message is empty. *)
Theorem submit_failure_message `{Runtime} (qp : QueryParams) (endpoint : Request → _)
    (a : AppState) :
  let a' := app (submit qp endpoint a) in
  let req := register_request qp (form a) in
  let shown (e : JsError) := if nonempty (message e) then message e else err_name e in
  (∀ e, endpoint req = Throw e → error a' = shown e)
  ∧ (∀ res e, endpoint req = Normal res → ok res = false → text res = Throw e →
              error a' = shown e)
  ∧ (∀ res e, endpoint req = Normal res → ok res = true → json res = Throw e →
              error a' = shown e).
Proof.
  intros a' req shown. unfold a', req, shown. repeat split.
  - intros e He. run_handler. rewrite He. simpl. apply error_text_spec.
  - intros res e He Hok Ht. run_handler. rewrite He. simpl. rewrite Hok. simpl.
    rewrite Ht. simpl. apply error_text_spec.
  - intros res e He Hok Hj. run_handler. rewrite He. simpl. rewrite Hok. simpl.
    rewrite Hj. simpl. apply error_text_spec.
Qed.

Example submit_unreachable :
  let a' := app (submit (H := example_runtime) example_qp example_unreachable
                   (example_form "30")) in
  error a' = str "Failed to fetch" ∧ step a' = form_step ∧ submitting a' = false.
Proof. by vm_compute. Qed.

(** X9. The handler never throws and always ends with [submitting]
    false.  It issues its request from any state (it does not look at
    [submitting] or at the step), leaves the form and the rank preview
    untouched, and its outcome does not depend on the error text or the
    [submitting] flag it started from. *)
Theorem onSubmit_frame `{Runtime} (qp : QueryParams) (endpoint : Request → _)
    (w : World) :
  let r := onSubmit qp endpoint w in
  r.1 = Normal ()
  ∧ sent r.2 = sent w ++ [register_request qp (form (app w))]
  ∧ form (app r.2) = form (app w)
  ∧ rankPreview (app r.2) = rankPreview (app w)
  ∧ submitting (app r.2) = false
  ∧ ∀ (e : jsstring) (b : bool),
      onSubmit qp endpoint
        {| app := {| step := step (app w); submitting := b; error := e;
                     rankPreview := rankPreview (app w); form := form (app w);
                     me := me (app w); lbCountry := lbCountry (app w);
                     lbGlobal := lbGlobal (app w) |};
           sent := sent w |} = r.
Proof.
  intros r. unfold r, onSubmit. unfold_M. simpl.
  destruct (endpoint _) as [res|e]; simpl; [|by repeat split].
  destruct (ok res); simpl.
  - destruct (json res) as [[d|]|e]; simpl; by repeat split.
  - destruct (text res) as [msg|e]; simpl; by repeat split.
Qed.

(** ** The two steps *)

(** X10. Once the leaderboards are shown no handler leads back to the
    form: the submit handler, the rank preview and the three input
    handlers all leave the step at [leaderboards]. *)
Theorem leaderboards_absorbing `{Runtime} (qp : QueryParams)
    (register : Request → Completion (Response (option Registered.t)))
    (preview : Request → Completion (Response (option RankPreview.t)))
    (ignore : bool) (v : jsstring) (w : World) :
  step (app w) = leaderboards_step →
  step (app (onSubmit qp register w).2) = leaderboards_step
  ∧ step (app (rank_preview_effect qp preview ignore w).2) = leaderboards_step
  ∧ step (app (onChange_name v w).2) = leaderboards_step
  ∧ step (app (onChange_age v w).2) = leaderboards_step
  ∧ step (app (onChange_gender v w).2) = leaderboards_step.
Proof.
  intros Hs. split; [|split; [|by repeat split]].
  - unfold onSubmit. unfold_M. simpl.
    destruct (register _) as [res|e]; simpl; [|done].
    destruct (ok res); simpl.
    + by destruct (json res) as [[d|]|e].
    + by destruct (text res) as [msg|e].
  - unfold rank_preview_effect.
    destruct (nonempty (countryCode qp) && (0 <? timeSec qp)%float); [|done].
    unfold run. unfold_M. simpl.
    destruct (preview _) as [res|e]; simpl; [|done].
    destruct (ok res); simpl; [|done].
    by destruct (json res) as [[[[n|]]|]|e], ignore.
Qed.

Lemma leaderboards_absorbing_witness :
  let w := submit (H := example_runtime) example_qp example_accepting
             (example_form "30") in
  step (app w) = leaderboards_step
  ∧ step (app (onSubmit (H := example_runtime) example_qp example_rejecting w).2)
    = leaderboards_step.
Proof.
  intros w. split; [reflexivity|].
  exact (proj1 (leaderboards_absorbing (H := example_runtime) example_qp
                  example_rejecting (example_previewing 1) false [] w eq_refl)).
Defined.

(** ** While the request is in flight, and after editing *)

(** X11. While the handler awaits the answer, the form step shows the
    submit control disabled and labelled as in progress, shows no error
    line even if an earlier attempt left one, and keeps the three inputs
    as typed; the handler ends where it would have ended from the state
    before. *)
Theorem pending_view `{Runtime} (qp : QueryParams) (endpoint : Request → _)
    (a : AppState) (now : Z) :
  step a = form_step →
  (∃ v, App qp (onSubmit_pending a) now = FormStep v
        ∧ submit_disabled v = true
        ∧ submit_label v = str "Submitting" ++ ellipsis
        ∧ error_line v = EmptyString
        ∧ name_value v = FormState.name (form a)
        ∧ age_value v = FormState.age (form a)
        ∧ gender_value v = FormState.gender (form a))
  ∧ submit qp endpoint (onSubmit_pending a) = submit qp endpoint a.
Proof.
  intros Hs. split.
  - unfold App, onSubmit_pending. unfold_M. simpl. rewrite Hs.
    eexists. split; [reflexivity|]. by repeat split.
  - unfold submit, onSubmit_pending, onSubmit. unfold_M. simpl.
    destruct (endpoint _) as [res|e]; simpl; [|done].
    destruct (ok res); simpl.
    + by destruct (json res) as [[d|]|e].
    + by destruct (text res) as [msg|e].
Qed.

Lemma pending_view_witness :
  let a := app (submit (H := example_runtime) example_qp example_rejecting
                  (example_form "30")) in
  step a = form_step
  ∧ error a = str "duplicate entry"
  ∧ ∃ v, App (H := example_runtime) example_qp (onSubmit_pending a) 0 = FormStep v
         ∧ submit_disabled v = true
         ∧ error_line v = EmptyString.
Proof.
  intros a. split; [reflexivity|]. split; [reflexivity|].
  destruct (pending_view (H := example_runtime) example_qp example_rejecting a 0
              eq_refl) as ((v & Hv & Hd & _ & He & _) & _).
  exists v. split; [exact Hv|]. split; [exact Hd|exact He].
Defined.





(** ** Row keys *)

Lemma String_int_inj (a b : Z) : String_int a = String_int b → a = b.
Proof.
  intros E. apply (f_equal parse_decimal) in E.
  rewrite !parse_decimal_String_int in E. by injection E.
Qed.

Lemma digits_no_dash (d : Decimal.uint) :
  45%N ∉ str (NilEmpty.string_of_uint d).
Proof.
  induction d; simpl; [apply not_elem_of_nil|..];
    (apply not_elem_of_cons; split; [discriminate|exact IHd]).
Qed.

(** The numeral of a number that is not negative has no minus sign. *)
Lemma String_int_no_dash (n : Z) : 0 ≤ n → 45%N ∉ String_int n.
Proof.
  intros Hn. unfold String_int. destruct n as [|p|p]; [| |lia].
  - vm_compute. intros E. by repeat (apply elem_of_cons in E as [E|E]; [discriminate|];
                              try apply elem_of_nil in E).
  - simpl. unfold NilZero.string_of_uint.
    pose proof (Unsigned.to_uint_nonnil p) as Hnil.
    pose proof (digits_no_dash (Pos.to_uint p)) as Hd.
    by destruct (Pos.to_uint p).
Qed.

(** Two lists that are cut at the first occurrence of [d] are cut at the
    same place. *)
Lemma cut_at_first {A} (d : A) (x x' y y' : list A) :
  d ∉ x → d ∉ x' → x ++ d :: y = x' ++ d :: y' → x = x' ∧ y = y'.
Proof.
  revert x'. induction x as [|c x IH]; intros [|c' x'] Hx Hx' E; simpl in E.
  - by injection E.
  - injection E as -> _. by apply not_elem_of_cons in Hx' as [? _].
  - injection E as -> _. by apply not_elem_of_cons in Hx as [? _].
  - injection E as -> E. apply not_elem_of_cons in Hx as [_ Hx].
    apply not_elem_of_cons in Hx' as [_ Hx'].
    destruct (IH x' Hx Hx' E) as [-> ->]. done.
Qed.

(** The fallback key of a row tells its position. *)
Lemma fallback_key_inj (c c' : jsstring) (i j : nat) :
  c ++ str "-" ++ String_int (Z.of_nat i) = c' ++ str "-" ++ String_int (Z.of_nat j) →
  c = c' ∧ i = j.
Proof.
  intros E. apply (f_equal reverse) in E.
  rewrite !reverse_app in E. change (reverse (str "-")) with [45%N] in E.
  rewrite <- !(assoc_L (++)) in E. simpl in E.
  apply cut_at_first in E as [En Ec].
  - apply (inj reverse) in En, Ec. apply String_int_inj in En. split; [done|lia].
  - rewrite elem_of_reverse. apply String_int_no_dash. lia.
  - rewrite elem_of_reverse. apply String_int_no_dash. lia.
Qed.

(** X13. Two rendered rows with the same key are, if neither input row
    has an id, one and the same position, and, if both have an id, rows
    with the same id.  So keys are distinct on a leaderboard without ids
    and on a leaderboard whose ids are all present and distinct. *)
Theorem Table_keys `{Runtime} (title : jsstring) (rows : list LeaderboardRow)
    (highlight : option LeaderboardRow) (now : Z) (i j : nat)
    (ri rj : LeaderboardRow) (vi vj : RowView) :
  rows !! i = Some ri →
  rows !! j = Some rj →
  tbody (Table title rows highlight now) !! i = Some vi →
  tbody (Table title rows highlight now) !! j = Some vj →
  key vi = key vj →
  (Row.id ri = None → Row.id rj = None → i = j)
  ∧ (is_Some (Row.id ri) → is_Some (Row.id rj) → Row.id ri = Row.id rj).
Proof.
  intros Hi Hj Hvi Hvj E.
  rewrite Table_lookup, Hi in Hvi. rewrite Table_lookup, Hj in Hvj.
  injection Hvi as <-. injection Hvj as <-. unfold tr in E. simpl in E.
  split.
  - intros Ni Nj. rewrite Ni, Nj in E. by apply fallback_key_inj in E as [_ ?].
  - intros [a Ha] [b Hb]. rewrite Ha, Hb in E |- *. f_equal.
    by apply String_int_inj.
Qed.

Lemma Table_keys_witness :
  let r0 := example_row (Some 7) "Ann" 9.8 "US" in
  let r1 := example_row (Some 7) "Bob" 9.9 "US" in
  let body := tbody (Table (H := example_runtime) [] [r0; r1] None 0) in
  key <$> body = [str "7"; str "7"]
  ∧ Row.id r0 = Row.id r1.
Proof.
  intros r0 r1 body. split; [reflexivity|].
  refine (proj2 (Table_keys (H := example_runtime) [] [r0; r1] None 0 0 1 r0 r1 _ _
                   eq_refl eq_refl eq_refl eq_refl eq_refl) _ _); by eexists.
Defined.

(** ** Row dates *)

(** X14. The moment of rendering reaches the table only through rows
    that carry neither [created_at] nor [t_qr]: when every row carries
    one of them, the whole table is the same at any moment; [created_at]
    is preferred to [t_qr] even when it is the empty string. *)
Theorem Table_dated `{Runtime} (title : jsstring) (rows : list LeaderboardRow)
    (highlight : option LeaderboardRow) (now now' : Z) :
  Forall (λ r, is_Some (Row.created_at r) ∨ is_Some (Row.t_qr r)) rows →
  Table title rows highlight now = Table title rows highlight now'
  ∧ ∀ i r d, rows !! i = Some r → Row.created_at r = Some d →
             td_date <$> tbody (Table title rows highlight now) !! i
             = Some (Text (toLocaleDateString (inl d))).
Proof.
  intros Hd. split.
  - unfold Table. f_equal. apply imap_ext. intros i r Hi.
    rewrite Forall_lookup in Hd. specialize (Hd i r Hi). unfold tr. f_equal.
    destruct (Row.created_at r), (Row.t_qr r); try reflexivity.
    by destruct Hd as [[? [=]]|[? [=]]].
  - intros i r d Hi Hc. rewrite Table_lookup, Hi. simpl. by rewrite Hc.
Qed.

Lemma Table_dated_witness :
  let r := {| Row.id := Some 1; Row.name := str "Ann"; Row.age := Some 30;
              Row.gender := None; Row.country := str "US"; Row.time_seconds := 9.5;
              Row.created_at := None; Row.t_qr := Some (str "2025-01-01") |} in
  Forall (λ r, is_Some (Row.created_at r) ∨ is_Some (Row.t_qr r)) [r]
  ∧ Table (H := example_runtime) [] [r] None 0 = Table (H := example_runtime) [] [r] None 1.
Proof.
  intros r.
  assert (Hd : Forall (λ r, is_Some (Row.created_at r) ∨ is_Some (Row.t_qr r)) [r]).
  { constructor; [right; by eexists|constructor]. }
  split; [exact Hd|].
  exact (proj1 (Table_dated (H := example_runtime) [] [r] None 0 1 Hd)).
Defined.

(** ** The JavaScript copy of the table *)



Example Table_js_zero_id :
  let r := example_row (Some 0) "Ann" 9.8 "US" in
  key <$> tbody (Table (H := example_runtime) [] [r] None 0) = [str "0"]
  ∧ key <$> tbody (Table_js (H := example_runtime) [] [r] None 0) = [str "US-0"].
Proof. by vm_compute. Qed.

(** ** From the accepted registration to the leaderboards *)

Lemma no_highlight `{Runtime} (now : Z) (rows : list LeaderboardRow) :
  Forall (λ v, highlighted v = false) (imap (tr None now) rows).
Proof.
  apply Forall_forall. intros v Hv.
  apply elem_of_lookup_imap in Hv as (i & r & -> & _). by rewrite tr_highlighted.
Qed.

(** X16. After an accepted registration the page shows the leaderboards
    that the response carried, row for row, with the response's [me] as
    the highlight of both tables; a leaderboard missing from the response
    is shown as an empty table, and a response without [me] gives no rank
    line and no highlighted row. *)
Theorem registered_view `{Runtime} (qp : QueryParams) (endpoint : Request → _)
    (a : AppState) (res : Response (option Registered.t)) (data : Registered.t)
    (now : Z) :
  endpoint (register_request qp (form a)) = Normal res →
  ok res = true →
  json res = Normal (Some data) →
  ∃ v, App qp (app (submit qp endpoint a)) now = LeaderboardsStep v
    ∧ tbody (country_table v)
      = imap (tr (row <$> Registered.me data) now)
          (default [] (Registered.leaderboard_country data))
    ∧ tbody (global_table v)
      = imap (tr (row <$> Registered.me data) now)
          (default [] (Registered.leaderboard_global data))
    ∧ (Registered.leaderboard_country data = None → tbody (country_table v) = [])
    ∧ (Registered.leaderboard_global data = None → tbody (global_table v) = [])
    ∧ (Registered.me data = None →
       country_rank v = Undefined ∧ global_rank v = Undefined
       ∧ Forall (λ r, highlighted r = false)
           (tbody (country_table v) ++ tbody (global_table v))).
Proof.
  intros He Hok Hj.
  assert (Ea : app (submit qp endpoint a)
               = {| step := leaderboards_step; submitting := false; error := [];
                    rankPreview := rankPreview a; form := form a;
                    me := Registered.me data;
                    lbCountry := default [] (Registered.leaderboard_country data);
                    lbGlobal := default [] (Registered.leaderboard_global data) |}).
  { run_handler. rewrite He. simpl. rewrite Hok. simpl. by rewrite Hj. }
  rewrite Ea. unfold App. simpl. eexists. split; [reflexivity|]. simpl.
  split; [reflexivity|]. split; [reflexivity|].
  split; [by intros ->|]. split; [by intros ->|].
  intros ->. simpl. split; [reflexivity|]. split; [reflexivity|].
  apply Forall_app. split; apply no_highlight.
Qed.

Lemma registered_view_witness :
  let a := example_form "30" in
  example_accepting (register_request (H := example_runtime) example_qp (form a))
  = Normal {| ok := true; text := Normal [];
              json := Normal (Some {| Registered.me := Some example_me;
                                      Registered.leaderboard_country := Some example_rows;
                                      Registered.leaderboard_global := None |}) |}
  ∧ ∃ v, App (H := example_runtime) example_qp
           (app (submit (H := example_runtime) example_qp example_accepting a)) 0
         = LeaderboardsStep v
         ∧ length (tbody (country_table v)) = 4%nat
         ∧ tbody (global_table v) = [].
Proof.
  intros a. split; [reflexivity|].
  destruct (registered_view (H := example_runtime) example_qp example_accepting a
              _ _ 0 eq_refl eq_refl eq_refl)
    as (v & Hv & Hc & _ & _ & Hg & _).
  exists v. split; [exact Hv|]. split.
  - rewrite Hc. reflexivity.
  - by apply Hg.
Defined.
